(** * Interview Transcript Analyzer: a shallow embedding of [app.py]

    The program reads an uploaded transcript (plain text, PDF or .docx),
    shows a preview, interpolates the text into a fixed prompt, calls a
    text-generation service and renders the answer.  This development
    embeds [configure_gemini_api], [generate_interview_summary], [main]
    and the script's entry point of [app.py] and proves the properties of
    start-up, extraction, preview, prompt construction and response
    handling.

    Python values are modelled as follows.
    - [str] is a sequence of Unicode code points: [list N].
    - [bytes] is [list byte].
    - A raised exception is a value of [exn]; a computation that may raise
      returns an [outcome].
    - Calls into the UI framework and into the generation client are
      recorded, in order, in a trace of [event]s. *)

From Stdlib Require Import NArith ZArith List String Ascii Lia Bool.
From Stdlib.Strings Require Import Byte.
From stdpp Require Import base option list gmap.
Import ListNotations.

Local Open Scope N_scope.

(** ** Strings and bytes *)

Definition codepoint := N.
Abbreviation pystr := (list codepoint).
Abbreviation bytes := (list byte).

(** A string literal of the source whose characters are all ASCII. *)
Definition lit (s : string) : pystr :=
  map N_of_ascii (list_ascii_of_string s).

(** [sep.join(parts)] *)
Fixpoint join (sep : pystr) (parts : list pystr) : pystr :=
  match parts with
  | [] => []
  | [p] => p
  | p :: rest => p ++ sep ++ join sep rest
  end.

(** [needle in hay] and the number of positions of [hay] at which
    [needle] starts. *)
Fixpoint starts_with (needle hay : pystr) : bool :=
  match needle, hay with
  | [], _ => true
  | _ :: _, [] => false
  | a :: needle', b :: hay' => (a =? b) && starts_with needle' hay'
  end.

Fixpoint contains (needle hay : pystr) : bool :=
  starts_with needle hay ||
  match hay with
  | [] => false
  | _ :: hay' => contains needle hay'
  end.

Fixpoint occurrences (needle hay : pystr) : nat :=
  ((if starts_with needle hay then 1 else 0) +
   match hay with
   | [] => 0
   | _ :: hay' => occurrences needle hay'
   end)%nat.

(** ** Exceptions

    [exn] ranges over the instances of Python's [Exception], the class
    both handlers of the program catch. *)

Inductive exn :=
| UnicodeDecodeError
| KeyError (key : pystr)
| LibraryError (class : string) (message : pystr).

Inductive outcome (A : Type) :=
| Ok (a : A)
| Raise (e : exn).
Arguments Ok {A} a.
Arguments Raise {A} e.

(** ** [bytes.decode('utf-8')]

    The strict UTF-8 codec: shortest form only, no surrogates, nothing
    above U+10FFFF. *)

Definition is_cont (n : N) : bool := (0x80 <=? n) && (n <=? 0xBF).

Definition is_scalar (c : codepoint) : bool :=
  (c <? 0xD800) || ((0xDFFF <? c) && (c <=? 0x10FFFF)).

Fixpoint utf8_decode (b : bytes) : option pystr :=
  match b with
  | [] => Some []
  | b0 :: t0 =>
    let n0 := Byte.to_N b0 in
    if n0 <? 0x80 then cons n0 <$> utf8_decode t0
    else match t0 with
    | [] => None
    | b1 :: t1 =>
      let n1 := Byte.to_N b1 in
      if negb (is_cont n1) then None
      else if (0xC0 <=? n0) && (n0 <=? 0xDF) then
        let c := (n0 - 0xC0) * 64 + (n1 - 0x80) in
        if 0x80 <=? c then cons c <$> utf8_decode t1 else None
      else match t1 with
      | [] => None
      | b2 :: t2 =>
        let n2 := Byte.to_N b2 in
        if negb (is_cont n2) then None
        else if (0xE0 <=? n0) && (n0 <=? 0xEF) then
          let c := (n0 - 0xE0) * 4096 + (n1 - 0x80) * 64 + (n2 - 0x80) in
          if (0x800 <=? c) && is_scalar c
          then cons c <$> utf8_decode t2 else None
        else match t2 with
        | [] => None
        | b3 :: t3 =>
          let n3 := Byte.to_N b3 in
          if negb (is_cont n3) then None
          else if (0xF0 <=? n0) && (n0 <=? 0xF7) then
            let c := (n0 - 0xF0) * 262144 + (n1 - 0x80) * 4096
                     + (n2 - 0x80) * 64 + (n3 - 0x80) in
            if (0x10000 <=? c) && (c <=? 0x10FFFF)
            then cons c <$> utf8_decode t3 else None
          else None
        end
      end
    end
  end.

(** [str.encode('utf-8')], the definition of the encoding. *)

Definition byte_of_N (n : N) : byte :=
  match Byte.of_N n with
  | Some b => b
  | None => x00
  end.

Definition utf8_encode1 (c : codepoint) : bytes :=
  if c <? 0x80 then [byte_of_N c]
  else if c <? 0x800 then
    [byte_of_N (0xC0 + c / 64); byte_of_N (0x80 + c mod 64)]
  else if c <? 0x10000 then
    [byte_of_N (0xE0 + c / 4096); byte_of_N (0x80 + (c / 64) mod 64);
     byte_of_N (0x80 + c mod 64)]
  else
    [byte_of_N (0xF0 + c / 262144); byte_of_N (0x80 + (c / 4096) mod 64);
     byte_of_N (0x80 + (c / 64) mod 64); byte_of_N (0x80 + c mod 64)].

Definition utf8_encode (s : pystr) : bytes :=
  concat (map utf8_encode1 s).

(** The byte strings that are well-formed UTF-8: the encodings of
    sequences of Unicode scalar values. *)
Definition valid_utf8 (b : bytes) : Prop :=
  exists s : pystr, forallb is_scalar s = true /\ utf8_encode s = b.

(** ** The prompt (the f-string of [generate_interview_summary])

    [prompt_head] is the template up to the placeholder
    [{transcript_text}], [prompt_tail] what follows it. *)

Definition prompt_head : pystr := lit
"Analyze the following interview transcript and provide a comprehensive, structured summary with the following sections:

1. Interview Overview
   - Candidate Name (if mentioned)
   - Position/Role Applied For
   - Interview Type (Technical, Behavioral, etc.)

2. Candidate Background
   - Key Professional Experiences
   - Educational Qualifications
   - Relevant Skills Highlighted

3. Interview Highlights
   - Significant Discussion Points
   - Technical or Role-Specific Questions and Answers
   - Candidate's Strengths
   - Areas of Potential Development

4. Interview Tone and Communication
   - Candidate's Communication Style
   - Confidence Level
   - Depth of Responses

5. Interviewer's Perspective
   - Key Observations
   - Potential Fit for the Role
   - Notable Reactions or Comments

6. Key Takeaways
   - Overall Impression
   - Recommendation or Next Steps

Transcript:
".

Definition prompt_tail : pystr := lit
"

Provide insights and observations based on the conversation, maintaining objectivity and focusing on professional assessment.".

Definition build_prompt (transcript_text : pystr) : pystr :=
  prompt_head ++ transcript_text ++ prompt_tail.

(** The six section headers the template asks for. *)
Definition section_headers : list pystr :=
  [lit "Interview Overview"; lit "Candidate Background";
   lit "Interview Highlights"; lit "Interview Tone and Communication";
   lit "Interviewer's Perspective"; lit "Key Takeaways"].

(** ** External collaborators: objects *)

Module PyPDF2.
(** A page is known by what [page.extract_text()] does. *)
Record PageObject := { extract_text : outcome pystr }.
Record PdfReader := { pages : list PageObject }.
End PyPDF2.

Module docx.
Record Paragraph := { text : pystr }.
Record Document := { paragraphs : list Paragraph }.
End docx.

Module genai.
Record GenerativeModel := { model_name : pystr }.
(** [response.text] is a property that raises when the response holds
    no usable text. *)
Record GenerateContentResponse := { text : outcome pystr }.
End genai.

(** The file handed back by [st.file_uploader]. *)
Record UploadedFile := { type : pystr; getvalue : bytes }.

(** ** Observable events, in the order the program performs them *)

Inductive event :=
| st_set_page_config (page_title page_icon layout : pystr)
| st_title (body : pystr)
| st_file_uploader (label : pystr) (types : list pystr) (help : pystr)
| st_expander_enter (label : pystr)
| st_expander_exit
| st_text (body : pystr)
| st_write (body : pystr)
| st_spinner_enter (label : pystr)
| st_spinner_exit
| st_header (body : pystr)
| st_markdown (body : pystr)
(** [st.error(f"<prefix>{str(e)}")] *)
| st_error (prefix : pystr) (e : exn)
(** [model.generate_content(prompt)] *)
| generate_content_call (model : genai.GenerativeModel) (prompt : pystr).

Definition is_generation (ev : event) : bool :=
  match ev with
  | generate_content_call _ _ => true
  | _ => false
  end.

(** ** Computations: exceptions and a trace of events *)

#[global] Instance outcome_ret : MRet outcome := @Ok.
#[global] Instance outcome_bind : MBind outcome := fun A B k m =>
  match m with
  | Ok a => k a
  | Raise e => Raise e
  end.

Definition M (A : Type) : Type := list event -> outcome A * list event.

#[global] Instance M_ret : MRet M := fun A a tr => (Ok a, tr).
#[global] Instance M_bind : MBind M := fun A B k m tr =>
  match m tr with
  | (Ok a, tr') => k a tr'
  | (Raise e, tr') => (Raise e, tr')
  end.

Definition lift {A} (o : outcome A) : M A := fun tr => (o, tr).

Definition emit (ev : event) : M unit := fun tr => (Ok tt, tr ++ [ev]).

(** [try: body / except Exception as e: handler e] *)
Definition try_except {A} (body : M A) (handler : exn -> M A) : M A :=
  fun tr =>
    match body tr with
    | (Ok a, tr') => (Ok a, tr')
    | (Raise e, tr') => handler e tr'
    end.

(** [with cm: body], for a context manager that only draws on the page:
    it is left whether or not the body raises. *)
Definition with_ {A} (enter leave : event) (body : M A) : M A :=
  fun tr =>
    let '(r, tr') := body (tr ++ [enter]) in (r, tr' ++ [leave]).

(** [d[k]] *)
Definition getitem (d : gmap pystr pystr) (k : pystr) : outcome pystr :=
  match d !! k with
  | Some v => Ok v
  | None => Raise (KeyError k)
  end.

Definition run {A} (m : M A) : outcome A * list event := m [].

(** ** The program *)

(** The third-party calls the program makes: [PyPDF2.PdfReader(file)],
    [docx.Document(file)] and [model.generate_content(prompt)].  Each
    either returns or raises. *)
Class Services := {
  PdfReader : bytes -> outcome PyPDF2.PdfReader;
  Document : bytes -> outcome docx.Document;
  generate_content :
    genai.GenerativeModel -> pystr -> outcome genai.GenerateContentResponse
}.

(** [genai.GenerativeModel('gemini-2.5-pro-exp-03-25')] *)
Definition model : genai.GenerativeModel :=
  {| genai.model_name := lit "gemini-2.5-pro-exp-03-25" |}.

Definition fallback_summary : gmap pystr pystr :=
  {[ lit "summary" := lit "Could not generate summary." ]}.

Definition generate_interview_summary `{Services} (transcript_text : pystr)
  : M (gmap pystr pystr) :=
  let prompt := build_prompt transcript_text in
  try_except
    (emit (generate_content_call model prompt);;
     response ← lift (generate_content model prompt);
     text ← lift (genai.text response);
     mret {[ lit "summary" := text ]})
    (fun e =>
       emit (st_error (lit "Error generating summary: ") e);;
       mret fallback_summary).

Definition application_pdf : pystr := lit "application/pdf".
Definition application_docx : pystr := lit
  "application/vnd.openxmlformats-officedocument.wordprocessingml.document".

(** The reading of the upload: the [if]/[elif]/[else] at the head of the
    [try] block of [main]. *)
Definition extract `{Services} (uploaded_file : UploadedFile)
  : outcome pystr :=
  if decide (type uploaded_file = application_pdf) then
    pdf_reader ← PdfReader (getvalue uploaded_file);
    page_texts ← mapM PyPDF2.extract_text (PyPDF2.pages pdf_reader);
    mret (join (lit " ") page_texts)
  else if decide (type uploaded_file = application_docx) then
    doc ← Document (getvalue uploaded_file);
    mret (join (lit " ") (map docx.text (docx.paragraphs doc)))
  else
    match utf8_decode (getvalue uploaded_file) with
    | Some s => Ok s
    | None => Raise UnicodeDecodeError
    end.

(** The argument of [st.text] in the preview expander. *)
Definition preview (transcript_text : pystr) : pystr :=
  if (1000 <? length transcript_text)%nat
  then take 1000 transcript_text ++ lit "..."
  else transcript_text.

(** What [main] draws before it looks at the upload: the page
    configuration, the title and the file uploader. *)
Definition page_setup : list event :=
  [st_set_page_config (lit "Interview Transcript Analyzer")
                      [0x1F4CB] (lit "wide");
   st_title (0x1F91D :: lit " Interview Transcript Analyzer");
   st_file_uploader (lit "Upload Interview Transcript")
     [lit "txt"; lit "pdf"; lit "docx"]
     (lit "Upload a text file containing the interview transcript")].

(** [upload] is what the user gave the file uploader, if anything. *)
Definition main `{Services} (upload : option UploadedFile) : M unit :=
  emit (st_set_page_config (lit "Interview Transcript Analyzer")
                           [0x1F4CB] (lit "wide"));;
  emit (st_title (0x1F91D :: lit " Interview Transcript Analyzer"));;
  emit (st_file_uploader (lit "Upload Interview Transcript")
          [lit "txt"; lit "pdf"; lit "docx"]
          (lit "Upload a text file containing the interview transcript"));;
  match upload with
  | Some uploaded_file =>
    try_except
      (transcript_text ← lift (extract uploaded_file);
       with_ (st_expander_enter (lit "Original Transcript Preview"))
             st_expander_exit
             (emit (st_text (preview transcript_text)));;
       emit (st_write (0x1F50D :: lit " Analyzing Interview Transcript..."));;
       summary ← with_ (st_spinner_enter
                          (lit "Generating comprehensive analysis..."))
                       st_spinner_exit
                       (generate_interview_summary transcript_text);
       emit (st_header (0x1F4C4 :: lit " Interview Analysis Report"));;
       emit (st_markdown (lit "### Comprehensive Insights"));;
       shown ← lift (getitem summary (lit "summary"));
       emit (st_write shown))
      (fun e => emit (st_error (lit "Error processing file: ") e))
  | None => mret tt
  end.

(** The generation call seen from outside: the text of the response, or
    the exception raised by the call or by [response.text]; the events
    [generate_interview_summary] performs; the text it hands back. *)
Definition generation `{Services} (transcript_text : pystr)
  : outcome pystr :=
  response ← generate_content model (build_prompt transcript_text);
  genai.text response.

Definition generation_events `{Services} (transcript_text : pystr)
  : list event :=
  generate_content_call model (build_prompt transcript_text) ::
  match generation transcript_text with
  | Ok _ => []
  | Raise e => [st_error (lit "Error generating summary: ") e]
  end.

Definition summary_text `{Services} (transcript_text : pystr) : pystr :=
  match generation transcript_text with
  | Ok r => r
  | Raise _ => lit "Could not generate summary."
  end.

(** What [main] performs after [page_setup] once the transcript
    [transcript_text] has been read. *)
Definition success_events `{Services} (transcript_text : pystr)
  : list event :=
  [st_expander_enter (lit "Original Transcript Preview");
   st_text (preview transcript_text);
   st_expander_exit;
   st_write (0x1F50D :: lit " Analyzing Interview Transcript...");
   st_spinner_enter (lit "Generating comprehensive analysis...")]
  ++ generation_events transcript_text ++
  [st_spinner_exit;
   st_header (0x1F4C4 :: lit " Interview Analysis Report");
   st_markdown (lit "### Comprehensive Insights");
   st_write (summary_text transcript_text)].

(** A character that occurs nowhere in the fixed wording of the prompt. *)
Definition foreign_to_template (c : codepoint) : bool :=
  negb (existsb (N.eqb c) (prompt_head ++ prompt_tail)).

(** ** Start-up: [configure_gemini_api] and the script's entry point *)

(** What the whole script can be observed to do: the plain [st.error]
    and the [st.error] on an exception that [configure_gemini_api] uses,
    the call [genai.configure(api_key=...)], and the events of [main]. *)
Inductive script_event :=
| st_error_text (body : pystr)
| st_error_exn (prefix : pystr) (e : exn)
| genai_configure_call (api_key : pystr)
| page (ev : event).

(** The process environment once [load_dotenv()] has run, and
    [genai.configure], which returns or raises. *)
Class Startup := {
  environ : gmap pystr pystr;
  configure : pystr -> outcome unit
}.

(** [os.getenv(name)] *)
Definition getenv `{Startup} (name : pystr) : option pystr :=
  environ !! name.

(** Computations over the script's trace. *)
Definition T (A : Type) : Type :=
  list script_event -> outcome A * list script_event.

#[global] Instance T_ret : MRet T := fun A a tr => (Ok a, tr).
#[global] Instance T_bind : MBind T := fun A B k m tr =>
  match m tr with
  | (Ok a, tr') => k a tr'
  | (Raise e, tr') => (Raise e, tr')
  end.

Definition perform (ev : script_event) : T unit :=
  fun tr => (Ok tt, tr ++ [ev]).

Definition external {A} (o : outcome A) : T A := fun tr => (o, tr).

Definition attempt {A} (body : T A) (handler : exn -> T A) : T A :=
  fun tr =>
    match body tr with
    | (Ok a, tr') => (Ok a, tr')
    | (Raise e, tr') => handler e tr'
    end.

(** A computation of [main] placed in the script. *)
Definition on_page {A} (m : M A) : T A :=
  fun tr => let '(r, evs) := run m in (r, tr ++ (page <$> evs)).

(** [configure_gemini_api()]; both [return None] and falling off the end
    give [tt].  [not api_key] holds for [None] and for the empty string. *)
Definition configure_gemini_api `{Startup} : T unit :=
  attempt
    (match getenv (lit "GOOGLE_API_KEY") with
     | None | Some [] =>
       perform (st_error_text (lit "Google API key not found in .env file."))
     | Some api_key =>
       perform (genai_configure_call api_key);;
       external (configure api_key)
     end)
    (fun e => perform (st_error_exn (lit "Error configuring API: ") e)).

(** The body of [if __name__ == "__main__":]. *)
Definition script `{Startup} `{Services} (upload : option UploadedFile)
  : T unit :=
  configure_gemini_api;;
  on_page (main upload).

(** [st.error] among the events of [main]. *)
Definition is_error (ev : event) : bool :=
  match ev with
  | st_error _ _ => true
  | _ => false
  end.

(** ** Scenarios used to exercise the theorems *)

Module Scenario.

Fixpoint forallb2 {A} (f : A -> A -> bool) (l1 l2 : list A) : bool :=
  match l1, l2 with
  | [], [] => true
  | a :: l1', b :: l2' => f a b && forallb2 f l1' l2'
  | _, _ => false
  end.

Definition pdf_bytes : bytes := [x25; x50; x44; x46; x2d; x31; x2e; x34].
Definition docx_bytes : bytes := [x50; x4b; x03; x04].
Definition three_pages : PyPDF2.PdfReader :=
  {| PyPDF2.pages :=
       [ {| PyPDF2.extract_text := Ok (lit "Q: Tell me about yourself.") |};
         {| PyPDF2.extract_text := Ok [] |};
         {| PyPDF2.extract_text := Ok (lit "A: I am a backend engineer.") |} ] |}.
Definition three_paragraphs : docx.Document :=
  {| docx.paragraphs :=
       [ {| docx.text := lit "Interviewer: Welcome." |};
         {| docx.text := [] |};
         {| docx.text := lit "Candidate: Thank you." |} ] |}.

(** The libraries read the two sample documents and reject everything
    else; generation answers ["MOCK_SUMMARY"]. *)
Definition read_pdf (b : bytes) : outcome PyPDF2.PdfReader :=
  if forallb2 Byte.eqb b pdf_bytes then Ok three_pages
  else Raise (LibraryError "PdfReadError" (lit "EOF marker not found")).
Definition read_docx (b : bytes) : outcome docx.Document :=
  if forallb2 Byte.eqb b docx_bytes then Ok three_paragraphs
  else Raise (LibraryError "BadZipFile" (lit "File is not a zip file")).

Definition working : Services :=
  {| PdfReader := read_pdf;
     Document := read_docx;
     generate_content := fun _ _ =>
       Ok {| genai.text := Ok (lit "MOCK_SUMMARY") |} |}.

(** Generation is out of quota. *)
Definition quota_error : exn :=
  LibraryError "ResourceExhausted" (lit "429 Quota exceeded").
Definition out_of_quota : Services :=
  {| PdfReader := read_pdf;
     Document := read_docx;
     generate_content := fun _ _ => Raise quota_error |}.

Definition plain (content : bytes) : UploadedFile :=
  {| type := lit "text/plain"; getvalue := content |}.
Definition pdf (content : bytes) : UploadedFile :=
  {| type := application_pdf; getvalue := content |}.
Definition word (content : bytes) : UploadedFile :=
  {| type := application_docx; getvalue := content |}.

Definition interview : pystr := lit
  "Q: Tell me about yourself. A: I am a backend engineer with 5 years experience.".

(** 1500 and exactly 1000 characters. *)
Definition long_text : pystr := repeat 0x41 1500.
Definition full_page : pystr := repeat 0x41 1000.

(** A greeting with accented, CJK and emoji characters: one to four
    bytes per character. *)
Definition greeting : pystr :=
  lit "Hi, Jos" ++ [0xE9; 0x20; 0x2014; 0x20; 0x4F60; 0x597D; 0x20; 0x1F600].

End Scenario.

(** More scenarios: start-up environments and documents. *)
Module Fixture.

Definition key_name : pystr := lit "GOOGLE_API_KEY".
Definition api_key : pystr := lit "AIzaSy-example-key".

Definition key_set : Startup :=
  {| environ := {[ key_name := api_key ]}; configure := fun _ => Ok tt |}.
Definition key_empty : Startup :=
  {| environ := {[ key_name := [] ]}; configure := fun _ => Ok tt |}.
Definition key_unset : Startup :=
  {| environ := {[ lit "HOME" := lit "/root" ]};
     configure := fun _ => Ok tt |}.
Definition bad_key : exn :=
  LibraryError "ValueError" (lit "invalid api_key").
Definition key_rejected : Startup :=
  {| environ := {[ key_name := api_key ]};
     configure := fun _ => Raise bad_key |}.

(** A PDF whose second page cannot be read. *)
Definition page_error : exn :=
  LibraryError "PdfReadError" (lit "Unexpected end of stream").
Definition damaged_page : PyPDF2.PdfReader :=
  {| PyPDF2.pages :=
       [ {| PyPDF2.extract_text := Ok (lit "Q: Why this role?") |};
         {| PyPDF2.extract_text := Raise page_error |};
         {| PyPDF2.extract_text := Ok (lit "A: I like databases.") |} ] |}.
Definition damaged : Services :=
  {| PdfReader := fun _ => Ok damaged_page;
     Document := Scenario.read_docx;
     generate_content := fun _ _ =>
       Ok {| genai.text := Ok (lit "MOCK_SUMMARY") |} |}.

(** Libraries that open every file as an empty document. *)
Definition blank : Services :=
  {| PdfReader := fun _ => Ok {| PyPDF2.pages := [] |};
     Document := fun _ => Ok {| docx.paragraphs := [] |};
     generate_content := fun _ _ =>
       Ok {| genai.text := Ok (lit "MOCK_SUMMARY") |} |}.

(** Generation answers with the very wording of the fallback. *)
Definition echo_fallback : Services :=
  {| PdfReader := Scenario.read_pdf;
     Document := Scenario.read_docx;
     generate_content := fun _ _ =>
       Ok {| genai.text := Ok (lit "Could not generate summary.") |} |}.

End Fixture.

(** * Properties *)

(** ** UTF-8: the decoder inverts the encoder and accepts nothing else *)

(** Let [lia] reason about [/] and [mod] by constants. *)
Ltac Zify.zify_post_hook ::= Z.to_euclidean_division_equations.


Lemma to_N_byte_of_N (n : N) : n < 256 -> Byte.to_N (byte_of_N n) = n.
Proof.
  intros Hn. unfold byte_of_N.
  destruct (Byte.of_N n) as [b|] eqn:E.
  - now apply Byte.to_of_N.
  - apply Byte.of_N_None_iff in E. lia.
Qed.

Lemma byte_of_N_to_N (b : byte) : byte_of_N (Byte.to_N b) = b.
Proof. unfold byte_of_N. now rewrite Byte.of_to_N. Qed.

Ltac ncase :=
  match goal with
  | |- context [?a <? ?b] => destruct (N.ltb_spec a b); try lia
  | |- context [?a <=? ?b] => destruct (N.leb_spec a b); try lia
  end.

Lemma utf8_decode_encode1 (c : codepoint) (rest : bytes) :
  is_scalar c = true ->
  utf8_decode (utf8_encode1 c ++ rest) = cons c <$> utf8_decode rest.
Proof.
  unfold is_scalar, utf8_encode1. intros Hc.
  assert (c < 0xD800 \/ 0xDFFF < c <= 0x10FFFF) as Hr.
  { apply orb_true_iff in Hc as [H|H]; [left; now apply N.ltb_lt|right].
    apply andb_true_iff in H as [H1 H2].
    apply N.ltb_lt in H1. apply N.leb_le in H2. lia. }
  clear Hc.
  destruct (N.ltb_spec c 0x80).
  { cbn [app utf8_decode]. rewrite to_N_byte_of_N by lia.
    destruct (N.ltb_spec c 0x80); [reflexivity|lia]. }
  destruct (N.ltb_spec c 0x800).
  { cbn [app utf8_decode]. rewrite !to_N_byte_of_N by lia.
    unfold is_cont. cbn [negb andb]. repeat ncase; cbn [negb andb]; try lia.
    do 2 f_equal. lia. }
  destruct (N.ltb_spec c 0x10000).
  { cbn [app utf8_decode]. rewrite !to_N_byte_of_N by lia.
    unfold is_cont, is_scalar. repeat (ncase; cbn [negb andb orb]); try lia.
    all: do 2 f_equal; lia. }
  cbn [app utf8_decode]. rewrite !to_N_byte_of_N by lia.
  unfold is_cont. repeat (ncase; cbn [negb andb orb]); try lia.
  all: do 2 f_equal; lia.
Qed.

Lemma utf8_decode_encode (s : pystr) :
  forallb is_scalar s = true -> utf8_decode (utf8_encode s) = Some s.
Proof.
  induction s as [|c s IH]; [reflexivity|].
  cbn [forallb]. intros [Hc Hs]%andb_true_iff.
  unfold utf8_encode. cbn [map concat]. fold (utf8_encode s).
  rewrite utf8_decode_encode1 by exact Hc. now rewrite IH.
Qed.

Lemma fmap_cons_Some (c : codepoint) (o : option pystr) (s : pystr) :
  cons c <$> o = Some s -> exists s', o = Some s' /\ s = c :: s'.
Proof. destruct o as [s'|]; [|discriminate]. intros [= <-]. eauto. Qed.

Lemma utf8_encode_cons (c : codepoint) (s : pystr) :
  utf8_encode (c :: s) = utf8_encode1 c ++ utf8_encode s.
Proof. reflexivity. Qed.

Lemma byte_of_N_eq (x : N) (b : byte) : x = Byte.to_N b -> byte_of_N x = b.
Proof. intros ->. apply byte_of_N_to_N. Qed.

Lemma utf8_decode_sound_aux (n : nat) :
  forall (b : bytes) (s : pystr),
    (length b <= n)%nat -> utf8_decode b = Some s ->
    forallb is_scalar s = true /\ utf8_encode s = b.
Proof.
  induction n as [|n IH]; intros b s Hlen.
  { destruct b; [|cbn in Hlen; lia]. now intros [= <-]. }
  destruct b as [|b0 t0]; [now intros [= <-]|].
  cbn [length] in Hlen. cbn [utf8_decode].
  pose proof (byte_of_N_to_N b0) as E0. pose proof (Byte.to_N_bounded b0) as B0.
  destruct (N.ltb_spec (Byte.to_N b0) 0x80) as [H0|H0].
  { intros (s' & Hs' & ->)%fmap_cons_Some.
    apply IH in Hs' as [Hv He]; [|lia].
    rewrite utf8_encode_cons, He. cbn [forallb]. rewrite Hv.
    unfold is_scalar, utf8_encode1.
    repeat (ncase; cbn [negb andb orb]); try lia.
    now rewrite (byte_of_N_eq _ b0). }
  destruct t0 as [|b1 t1]; [discriminate|]. cbn [length] in Hlen.
  pose proof (byte_of_N_to_N b1) as E1.
  unfold is_cont at 1.
  destruct (N.leb_spec 0x80 (Byte.to_N b1)) as [L1|L1]; [|discriminate].
  destruct (N.leb_spec (Byte.to_N b1) 0xBF) as [U1|U1]; [|discriminate].
  cbn [andb negb].
  destruct (N.leb_spec 0xC0 (Byte.to_N b0)) as [L0|L0];
    [destruct (N.leb_spec (Byte.to_N b0) 0xDF) as [U0|U0]|]; cbn [andb].
  { ncase; [|discriminate].
    intros (s' & Hs' & ->)%fmap_cons_Some.
    apply IH in Hs' as [Hv He]; [|lia].
    rewrite utf8_encode_cons, He. cbn [forallb]. rewrite Hv.
    unfold is_scalar, utf8_encode1.
    repeat (ncase; cbn [negb andb orb]); try lia.
    split; [reflexivity|]. cbn [app].
    now rewrite (byte_of_N_eq _ b0), (byte_of_N_eq _ b1) by lia. }
  all: destruct t1 as [|b2 t2]; [discriminate|]; cbn [length] in Hlen;
    pose proof (byte_of_N_to_N b2) as E2;
    unfold is_cont at 1;
    (destruct (N.leb_spec 0x80 (Byte.to_N b2)) as [L2|L2]; [|discriminate]);
    (destruct (N.leb_spec (Byte.to_N b2) 0xBF) as [U2|U2]; [|discriminate]);
    cbn [andb negb].
  2:{ destruct (N.leb_spec 0xE0 (Byte.to_N b0)); [lia|]. cbn [andb].
      destruct t2 as [|b3 t3]; [discriminate|].
      destruct (is_cont (Byte.to_N b3)); cbn [negb]; [|discriminate].
      destruct (N.leb_spec 0xF0 (Byte.to_N b0)); [lia|]. discriminate. }
  destruct (N.leb_spec 0xE0 (Byte.to_N b0)) as [L0'|L0'];
    [destruct (N.leb_spec (Byte.to_N b0) 0xEF) as [U0'|U0']|]; cbn [andb].
  { ncase; [|discriminate]. cbn [andb].
    destruct (is_scalar _) eqn:Hsc; [|discriminate].
    intros (s' & Hs' & ->)%fmap_cons_Some.
    apply IH in Hs' as [Hv He]; [|lia].
    rewrite utf8_encode_cons, He. cbn [forallb]. rewrite Hv, Hsc.
    split; [reflexivity|]. unfold utf8_encode1.
    repeat (ncase; cbn [negb andb orb]); try lia.
    cbn [app].
    now rewrite (byte_of_N_eq _ b0), (byte_of_N_eq _ b1), (byte_of_N_eq _ b2)
      by lia. }
  2:{ lia. }
  destruct t2 as [|b3 t3]; [discriminate|]; cbn [length] in Hlen;
    pose proof (byte_of_N_to_N b3) as E3;
    unfold is_cont at 1;
    (destruct (N.leb_spec 0x80 (Byte.to_N b3)) as [L3|L3]; [|discriminate]);
    (destruct (N.leb_spec (Byte.to_N b3) 0xBF) as [U3|U3]; [|discriminate]);
    cbn [andb negb].
  destruct (N.leb_spec 0xF0 (Byte.to_N b0)) as [L0''|L0'']; [|discriminate].
  destruct (N.leb_spec (Byte.to_N b0) 0xF7) as [U0''|U0'']; [|discriminate].
  cbn [andb].
  match goal with |- context [?a <=? ?b] => destruct (N.leb_spec a b) as [Lc|Lc] end;
    [|discriminate].
  match goal with |- context [?a <=? ?b] => destruct (N.leb_spec a b) as [Uc|Uc] end;
    [|discriminate].
  cbn [andb].
  intros (s' & Hs' & ->)%fmap_cons_Some.
  apply IH in Hs' as [Hv He]; [|lia].
  rewrite utf8_encode_cons, He. cbn [forallb]. rewrite Hv.
  unfold is_scalar, utf8_encode1.
  repeat (ncase; cbn [negb andb orb]); try lia.
  split; [reflexivity|].
  cbn [app].
  now rewrite (byte_of_N_eq _ b0), (byte_of_N_eq _ b1), (byte_of_N_eq _ b2),
    (byte_of_N_eq _ b3) by lia.
Qed.

(** ** Substrings *)

Lemma starts_with_app (n rest : pystr) : starts_with n (n ++ rest) = true.
Proof.
  induction n as [|a n IH]; [reflexivity|].
  cbn [app starts_with]. now rewrite N.eqb_refl, IH.
Qed.

Lemma starts_with_app_l (n h rest : pystr) :
  starts_with n h = true -> starts_with n (h ++ rest) = true.
Proof.
  revert h. induction n as [|a n IH]; intros [|b h]; cbn; try easy.
  intros [-> ?]%andb_true_iff. cbn. auto.
Qed.

Lemma contains_app_l (n h rest : pystr) :
  contains n h = true -> contains n (h ++ rest) = true.
Proof.
  induction h as [|b h IH].
  - cbn [contains]. rewrite orb_false_r. intros Hn.
    destruct n; [|discriminate]. now destruct rest.
  - cbn [contains app].
    intros [Hs|Hc]%orb_true_iff; apply orb_true_iff.
    + left. now apply (starts_with_app_l n (b :: h)).
    + right. auto.
Qed.

Lemma contains_app_r (n pre h : pystr) :
  contains n h = true -> contains n (pre ++ h) = true.
Proof.
  intros Hc. induction pre as [|b pre IH]; [exact Hc|].
  cbn [app contains]. rewrite IH. apply orb_true_r.
Qed.

Lemma occurrences_app_r (n pre h : pystr) :
  (occurrences n h <= occurrences n (pre ++ h))%nat.
Proof.
  induction pre as [|b pre IH]; [reflexivity|].
  cbn [app occurrences]. lia.
Qed.

Lemma occurrences_starts_with (n h : pystr) :
  starts_with n h = true -> (1 <= occurrences n h)%nat.
Proof. intros Hs. destruct h; cbn [occurrences]; rewrite Hs; lia. Qed.

Lemma starts_with_lookup (n h : pystr) :
  starts_with n h = true ->
  forall (k : nat) (x : codepoint), n !! k = Some x -> h !! k = Some x.
Proof.
  revert h. induction n as [|a n IH]; intros [|b h]; cbn [starts_with];
    try easy.
  intros [Hab Hs]%andb_true_iff [|k] x; cbn.
  - apply N.eqb_eq in Hab. congruence.
  - now apply IH.
Qed.

Lemma occurrences_none (n h : pystr) :
  (forall i : nat, starts_with n (drop i h) = false) -> occurrences n h = 0%nat.
Proof.
  induction h as [|b h IH]; intros Hno; pose proof (Hno 0%nat) as H0;
    cbn [drop] in H0; cbn [occurrences]; rewrite H0; [reflexivity|].
  rewrite IH; [reflexivity|]. intros i. apply (Hno (S i)).
Qed.

Lemma existsb_eqb_elem_of (c : codepoint) (s : pystr) :
  existsb (N.eqb c) s = false -> c ∉ s.
Proof.
  induction s as [|a s IH]; cbn [existsb].
  - intros _. apply not_elem_of_nil.
  - intros [Hca Hs]%orb_false_iff. apply not_elem_of_cons.
    split; [now apply N.eqb_neq|auto].
Qed.

(** A text holding a character [c] cannot start inside what precedes it
    when [c] does not occur there... *)
Lemma no_early_start (c : codepoint) (pre t post : pystr) :
  pre <> [] -> c ∉ pre -> c ∈ t ->
  starts_with t (pre ++ t ++ post) = false.
Proof.
  intros Hpre Hc Hin.
  destruct (starts_with t (pre ++ t ++ post)) eqn:Hs; [exfalso|reflexivity].
  pose proof (starts_with_lookup _ _ Hs) as Hl.
  assert (0 < length pre)%nat as Hlen by (destruct pre; [easy|cbn; lia]).
  assert (forall k : nat, t !! k <> Some c) as Hnone.
  { intros k. induction (lt_wf k) as [k _ IH]. intros Hk.
    pose proof (lookup_lt_Some _ _ _ Hk) as Hkt.
    apply Hl in Hk as Hk'.
    destruct (decide (k < length pre)%nat) as [Hlt|Hge].
    - rewrite lookup_app_l in Hk' by exact Hlt.
      apply Hc. eapply list_elem_of_lookup_2. exact Hk'.
    - rewrite lookup_app_r in Hk' by lia.
      rewrite lookup_app_l in Hk' by lia.
      apply (IH (k - length pre)%nat); [lia|exact Hk']. }
  apply list_elem_of_lookup in Hin as [k Hk]. exact (Hnone k Hk).
Qed.

(** ... nor later than where it was put, when [c] does not occur in what
    follows. *)
Lemma no_late_start (c : codepoint) (t post : pystr) (i : nat) :
  (0 < i)%nat -> c ∉ post -> c ∈ t ->
  starts_with t (drop i (t ++ post)) = false.
Proof.
  intros Hi Hc Hin.
  destruct (starts_with t (drop i (t ++ post))) eqn:Hs; [exfalso|reflexivity].
  pose proof (starts_with_lookup _ _ Hs) as Hl.
  assert (forall m k : nat, (length t - k <= m)%nat -> t !! k <> Some c)
    as Hnone.
  { induction m as [|m IH]; intros k Hm Hk;
      pose proof (lookup_lt_Some _ _ _ Hk) as Hkt; [lia|].
    apply Hl in Hk as Hk'. rewrite lookup_drop in Hk'.
    destruct (decide (i + k < length t)%nat) as [Hlt|Hge].
    - rewrite lookup_app_l in Hk' by exact Hlt.
      apply (IH (i + k)%nat); [lia|exact Hk'].
    - rewrite lookup_app_r in Hk' by lia.
      apply Hc. eapply list_elem_of_lookup_2. exact Hk'. }
  apply list_elem_of_lookup in Hin as [k Hk].
  exact (Hnone (length t) k ltac:(lia) Hk).
Qed.

Lemma occurrences_once (c : codepoint) (pre t post : pystr) :
  c ∉ pre -> c ∉ post -> c ∈ t ->
  occurrences t (pre ++ t ++ post) = 1%nat.
Proof.
  intros Hpre Hpost Hin.
  induction pre as [|b pre IH].
  - cbn [app]. destruct t as [|a t]; [now apply elem_of_nil in Hin|].
    cbn [app occurrences].
    change (a :: t ++ post) with ((a :: t) ++ post).
    rewrite (starts_with_app (a :: t) post).
    rewrite occurrences_none; [reflexivity|].
    intros i. apply (no_late_start c (a :: t) post (S i)); [lia|easy|easy].
  - apply not_elem_of_cons in Hpre as [Hcb Hpre].
    cbn [app occurrences].
    change (b :: pre ++ t ++ post) with ((b :: pre) ++ t ++ post).
    rewrite (no_early_start c (b :: pre) t post); [|easy| |easy].
    + now rewrite IH.
    + now apply not_elem_of_cons.
Qed.

(** ** [join] *)

Lemma join_cons (sep p q : pystr) (rest : list pystr) :
  join sep (p :: q :: rest) = p ++ sep ++ join sep (q :: rest).
Proof. reflexivity. Qed.

Lemma length_join (sep : pystr) (parts : list pystr) :
  length (join sep parts) =
  (sum_list (length <$> parts) + (length parts - 1) * length sep)%nat.
Proof.
  induction parts as [|p [|q rest] IH].
  - reflexivity.
  - cbn. lia.
  - rewrite join_cons, !length_app, IH. cbn. lia.
Qed.

Lemma mapM_Ok {A B} (f : A -> outcome B) (l : list A) (r : list B) :
  f <$> l = Ok <$> r -> mapM f l = Ok r.
Proof.
  revert r. induction l as [|a l IH]; intros [|b r]; cbn; try easy.
  intros [= Ha Hl]. rewrite Ha. cbn. now rewrite (IH r Hl).
Qed.

(** ** Extraction *)

Lemma mime_types_differ : application_docx <> application_pdf.
Proof. discriminate. Qed.

Lemma utf8_decode_None (b : bytes) : ~ valid_utf8 b -> utf8_decode b = None.
Proof.
  intros Hb. destruct (utf8_decode b) as [s|] eqn:E; [|reflexivity].
  exfalso. apply Hb. exists s.
  exact (utf8_decode_sound_aux (length b) b s (Nat.le_refl _) E).
Qed.

Lemma utf8_decode_None_invalid (b : bytes) :
  utf8_decode b = None -> ~ valid_utf8 b.
Proof.
  intros E (s & Hs & <-). now rewrite utf8_decode_encode in E.
Qed.

Section Run.
Context `{Services}.

Lemma extract_plain (f : UploadedFile) :
  type f <> application_pdf -> type f <> application_docx ->
  extract f = match utf8_decode (getvalue f) with
              | Some s => Ok s
              | None => Raise UnicodeDecodeError
              end.
Proof. intros H1 H2. unfold extract. now rewrite !decide_False. Qed.

(** ** Response handling: [generate_interview_summary] always returns *)

Lemma generate_interview_summary_run (t : pystr) (tr : list event) :
  generate_interview_summary t tr =
  (Ok {[ lit "summary" := summary_text t ]}, tr ++ generation_events t).
Proof.
  unfold generate_interview_summary, generation_events, summary_text,
    generation, try_except, emit, lift, fallback_summary.
  unfold mbind, M_bind, outcome_bind, mret, M_ret.
  destruct (generate_content model (build_prompt t)) as [r|e].
  - destruct (genai.text r) as [s|e]; [reflexivity|].
    now rewrite <- app_assoc.
  - now rewrite <- app_assoc.
Qed.

(** ** The flow of [main] *)

Lemma main_run_extracted (f : UploadedFile) (t : pystr) :
  extract f = Ok t ->
  run (main (Some f)) = (Ok tt, page_setup ++ success_events t).
Proof.
  intros Hx. unfold run, main, try_except, with_, emit, lift, getitem.
  unfold mbind, M_bind. rewrite Hx.
  rewrite generate_interview_summary_run.
  rewrite lookup_singleton_eq.
  unfold success_events, page_setup. cbn [app].
  rewrite <- !app_assoc. reflexivity.
Qed.

Lemma main_run_failed (f : UploadedFile) (e : exn) :
  extract f = Raise e ->
  run (main (Some f)) =
  (Ok tt, page_setup ++ [st_error (lit "Error processing file: ") e]).
Proof.
  intros Hx. unfold run, main, try_except, emit, lift.
  unfold mbind, M_bind. now rewrite Hx.
Qed.

Lemma main_run_idle :
  run (main None) = (Ok tt, page_setup).
Proof. reflexivity. Qed.

End Run.

(** [generate_interview_summary] returns on every input, with a mapping
    that has the key ["summary"]. *)
Lemma generate_interview_summary_returns `{Services}
    (transcript_text : pystr) (tr : list event) :
  exists (d : gmap pystr pystr) (tr' : list event),
    generate_interview_summary transcript_text tr = (Ok d, tr') /\
    is_Some (d !! lit "summary").
Proof.
  eexists _, _. split; [apply generate_interview_summary_run|].
  rewrite lookup_singleton_eq. eauto.
Qed.

(** The end-to-end scenario of a short plain-text transcript and a
    generation call answering ["MOCK_SUMMARY"]: the preview is the text
    itself, the prompt holds the text once, the report is the answer. *)
Example end_to_end_mock_summary :
  run (@main Scenario.working
         (Some (Scenario.plain (utf8_encode Scenario.interview)))) =
  (Ok tt,
   page_setup ++
   [st_expander_enter (lit "Original Transcript Preview");
    st_text Scenario.interview;
    st_expander_exit;
    st_write (0x1F50D :: lit " Analyzing Interview Transcript...");
    st_spinner_enter (lit "Generating comprehensive analysis...");
    generate_content_call model (build_prompt Scenario.interview);
    st_spinner_exit;
    st_header (0x1F4C4 :: lit " Interview Analysis Report");
    st_markdown (lit "### Comprehensive Insights");
    st_write (lit "MOCK_SUMMARY")]) /\
  occurrences Scenario.interview (build_prompt Scenario.interview) = 1%nat.
Proof. split; vm_compute; reflexivity. Qed.

(** * The specified behaviour *)

Lemma bind_Ok {A B} (a : A) (k : A -> outcome B) : Ok a ≫= k = k a.
Proof. reflexivity. Qed.

(** C1. Whenever the generation call fails -- [generate_content] raises, or
    reading [response.text] does -- [generate_interview_summary] returns
    normally with the mapping [{"summary": "Could not generate summary."}];
    the exception is not propagated, and the only trace of it is the
    [st.error] notification that follows the call. *)
Theorem generate_summary_fallback_on_failure `{Services}
    (transcript_text : pystr) (e : exn) (tr : list event) :
  generation transcript_text = Raise e ->
  generate_interview_summary transcript_text tr =
  (Ok {[ lit "summary" := lit "Could not generate summary." ]},
   tr ++ [generate_content_call model (build_prompt transcript_text);
          st_error (lit "Error generating summary: ") e]).
Proof.
  intros Hg. rewrite generate_interview_summary_run.
  unfold summary_text, generation_events. now rewrite Hg.
Qed.

Lemma generate_summary_fallback_on_failure_witness :
  @generation Scenario.out_of_quota Scenario.interview
    = Raise Scenario.quota_error /\
  @generate_interview_summary Scenario.out_of_quota Scenario.interview [] =
  (Ok {[ lit "summary" := lit "Could not generate summary." ]},
   [generate_content_call model (build_prompt Scenario.interview);
    st_error (lit "Error generating summary: ") Scenario.quota_error]).
Proof.
  split; [reflexivity|].
  apply (@generate_summary_fallback_on_failure Scenario.out_of_quota
           Scenario.interview Scenario.quota_error []).
  reflexivity.
Defined.

(** C2. When the generation call succeeds with text [R],
    [generate_interview_summary] returns exactly [{"summary": R}]: the
    text is stored as returned. *)
Theorem generate_summary_returns_text `{Services}
    (transcript_text R : pystr) (tr : list event) :
  generation transcript_text = Ok R ->
  generate_interview_summary transcript_text tr =
  (Ok {[ lit "summary" := R ]},
   tr ++ [generate_content_call model (build_prompt transcript_text)]).
Proof.
  intros Hg. rewrite generate_interview_summary_run.
  unfold summary_text, generation_events. now rewrite Hg.
Qed.

Lemma generate_summary_returns_text_witness :
  @generation Scenario.working Scenario.interview = Ok (lit "MOCK_SUMMARY") /\
  @generate_interview_summary Scenario.working Scenario.interview [] =
  (Ok {[ lit "summary" := lit "MOCK_SUMMARY" ]},
   [generate_content_call model (build_prompt Scenario.interview)]).
Proof.
  split; [reflexivity|].
  apply (@generate_summary_returns_text Scenario.working
           Scenario.interview (lit "MOCK_SUMMARY") []).
  reflexivity.
Defined.

(** C3, as stated, fails: the prompt built for the text ["Interview"]
    holds that text six times, not once. *)
Lemma build_prompt_text_not_once :
  ~ (Forall (fun h => contains h (build_prompt (lit "Interview")) = true)
       section_headers /\
     occurrences (lit "Interview") (build_prompt (lit "Interview")) = 1%nat).
Proof. intros [_ Hocc]. vm_compute in Hocc. discriminate. Qed.

(** C3, amended. For every text, the prompt contains each of the six
    section headers and is the fixed template with the text inserted at its
    one placeholder, so the text occurs in it at least once; it occurs
    exactly once whenever it holds a character that the template's own
    wording does not use. *)
Theorem build_prompt_headers_and_text (transcript_text : pystr) :
  Forall (fun h => contains h (build_prompt transcript_text) = true)
    section_headers /\
  build_prompt transcript_text =
    prompt_head ++ transcript_text ++ prompt_tail /\
  (1 <= occurrences transcript_text (build_prompt transcript_text))%nat /\
  (existsb foreign_to_template transcript_text = true ->
   occurrences transcript_text (build_prompt transcript_text) = 1%nat).
Proof.
  unfold build_prompt. repeat split.
  - unfold section_headers.
    repeat constructor; apply contains_app_l; vm_compute; reflexivity.
  - etransitivity; [|apply occurrences_app_r].
    apply occurrences_starts_with, starts_with_app.
  - intros (c & Hin & Hc)%existsb_exists.
    apply negb_true_iff in Hc. rewrite existsb_app in Hc.
    apply orb_false_iff in Hc as [Hh Ht].
    apply (occurrences_once c); [now apply existsb_eqb_elem_of..|].
    now apply list_elem_of_In.
Qed.

Lemma build_prompt_headers_and_text_witness :
  existsb foreign_to_template (lit "Why do you want this job?") = true /\
  occurrences (lit "Why do you want this job?")
    (build_prompt (lit "Why do you want this job?")) = 1%nat.
Proof.
  split; [reflexivity|].
  apply (build_prompt_headers_and_text (lit "Why do you want this job?")).
  reflexivity.
Defined.

(** C4. For an upload whose content type is neither PDF nor .docx and
    whose bytes are the UTF-8 encoding of a string [s] of Unicode scalar
    values, extraction returns exactly [s]. *)
Theorem extract_plain_text_decodes `{Services}
    (uploaded_file : UploadedFile) (s : pystr) :
  type uploaded_file <> application_pdf ->
  type uploaded_file <> application_docx ->
  forallb is_scalar s = true ->
  getvalue uploaded_file = utf8_encode s ->
  extract uploaded_file = Ok s.
Proof.
  intros H1 H2 Hs Hb. rewrite extract_plain by assumption.
  now rewrite Hb, utf8_decode_encode.
Qed.

Lemma extract_plain_text_decodes_witness :
  let f := Scenario.plain (utf8_encode Scenario.greeting) in
  type f <> application_pdf /\ type f <> application_docx /\
  forallb is_scalar Scenario.greeting = true /\
  @extract Scenario.working f = Ok Scenario.greeting.
Proof.
  intros f. split; [discriminate|]. split; [discriminate|].
  split; [reflexivity|].
  apply (@extract_plain_text_decodes Scenario.working f Scenario.greeting);
    [discriminate|discriminate|reflexivity|reflexivity].
Defined.

(** C5. For an upload whose content type is neither PDF nor .docx and
    whose bytes are not valid UTF-8, extraction raises the decoding error;
    nothing recovers from it before the handler of [main], which reports it
    to the user as the last thing the run does. *)
Theorem extract_invalid_utf8_raises `{Services}
    (uploaded_file : UploadedFile) :
  type uploaded_file <> application_pdf ->
  type uploaded_file <> application_docx ->
  ~ valid_utf8 (getvalue uploaded_file) ->
  extract uploaded_file = Raise UnicodeDecodeError /\
  run (main (Some uploaded_file)) =
  (Ok tt,
   page_setup ++ [st_error (lit "Error processing file: ") UnicodeDecodeError]).
Proof.
  intros H1 H2 Hb.
  assert (extract uploaded_file = Raise UnicodeDecodeError) as Hx.
  { rewrite extract_plain by assumption. now rewrite utf8_decode_None. }
  split; [exact Hx|]. now apply main_run_failed.
Qed.

Lemma extract_invalid_utf8_raises_witness :
  let f := Scenario.plain [x48; x69; xff] in
  ~ valid_utf8 (getvalue f) /\
  @extract Scenario.working f = Raise UnicodeDecodeError /\
  run (@main Scenario.working (Some f)) =
  (Ok tt,
   page_setup ++ [st_error (lit "Error processing file: ") UnicodeDecodeError]).
Proof.
  intros f.
  assert (~ valid_utf8 (getvalue f)) as Hb
    by (apply utf8_decode_None_invalid; reflexivity).
  split; [exact Hb|].
  apply (@extract_invalid_utf8_raises Scenario.working f);
    [discriminate|discriminate|exact Hb].
Defined.

(** C6. For a PDF upload that the reader opens and whose pages all yield
    their text, extraction returns the page texts in page order joined by
    single spaces: N pages give N segments and N-1 separators, a page
    without text giving an empty segment. *)
Theorem extract_pdf_joins_pages `{Services}
    (uploaded_file : UploadedFile) (pdf_reader : PyPDF2.PdfReader)
    (page_texts : list pystr) :
  type uploaded_file = application_pdf ->
  PdfReader (getvalue uploaded_file) = Ok pdf_reader ->
  PyPDF2.extract_text <$> PyPDF2.pages pdf_reader = Ok <$> page_texts ->
  extract uploaded_file = Ok (join (lit " ") page_texts) /\
  length (join (lit " ") page_texts) =
    (sum_list (length <$> page_texts) + (length page_texts - 1))%nat.
Proof.
  intros Ht Hr Hp. split.
  - unfold extract. rewrite decide_True by exact Ht. rewrite Hr.
    rewrite bind_Ok. now rewrite (mapM_Ok _ _ _ Hp).
  - rewrite length_join. change (length (lit " ")) with 1%nat. lia.
Qed.

Lemma extract_pdf_joins_pages_witness :
  let f := Scenario.pdf Scenario.pdf_bytes in
  let texts := [lit "Q: Tell me about yourself."; [];
                lit "A: I am a backend engineer."] in
  @extract Scenario.working f =
    Ok (lit "Q: Tell me about yourself.  A: I am a backend engineer.") /\
  length (join (lit " ") texts) = 55%nat.
Proof.
  intros f texts.
  exact (@extract_pdf_joins_pages Scenario.working f Scenario.three_pages
           texts eq_refl eq_refl eq_refl).
Defined.

(** C7. For a .docx upload that the library opens, extraction returns the
    paragraph texts in document order joined by single spaces, an empty
    paragraph giving an empty segment. *)
Theorem extract_docx_joins_paragraphs `{Services}
    (uploaded_file : UploadedFile) (doc : docx.Document) :
  type uploaded_file = application_docx ->
  Document (getvalue uploaded_file) = Ok doc ->
  let paragraph_texts := docx.text <$> docx.paragraphs doc in
  extract uploaded_file = Ok (join (lit " ") paragraph_texts) /\
  length (join (lit " ") paragraph_texts) =
    (sum_list (length <$> paragraph_texts) + (length paragraph_texts - 1))%nat.
Proof.
  intros Ht Hd texts. split.
  - unfold extract. rewrite decide_False, decide_True by
      (try exact Ht; rewrite Ht; exact mime_types_differ).
    now rewrite Hd.
  - rewrite length_join. change (length (lit " ")) with 1%nat. lia.
Qed.

Lemma extract_docx_joins_paragraphs_witness :
  let f := Scenario.word Scenario.docx_bytes in
  @extract Scenario.working f =
    Ok (lit "Interviewer: Welcome.  Candidate: Thank you.") /\
  length (lit "Interviewer: Welcome.  Candidate: Thank you.") = 44%nat.
Proof.
  intros f.
  exact (@extract_docx_joins_paragraphs Scenario.working f
           Scenario.three_paragraphs eq_refl eq_refl).
Defined.

(** C8. After a successful extraction the run shows, inside the preview
    expander, the first 1000 characters of the text followed by ["..."] when
    the text is longer than 1000 characters, and the text itself, with
    nothing added, when it is shorter than 1000 characters. *)
Theorem preview_displayed `{Services}
    (uploaded_file : UploadedFile) (transcript_text : pystr) :
  extract uploaded_file = Ok transcript_text ->
  exists (shown : pystr) (later : list event),
    snd (run (main (Some uploaded_file))) =
      page_setup ++
      [st_expander_enter (lit "Original Transcript Preview");
       st_text shown; st_expander_exit] ++ later /\
    ((1000 < length transcript_text)%nat ->
     shown = take 1000 transcript_text ++ lit "...") /\
    ((length transcript_text < 1000)%nat -> shown = transcript_text).
Proof.
  intros Hx. exists (preview transcript_text). eexists.
  rewrite (main_run_extracted _ _ Hx). unfold success_events. cbn [snd app].
  split; [reflexivity|]. unfold preview. split; intros Hlen.
  - apply Nat.ltb_lt in Hlen. now rewrite Hlen.
  - destruct (Nat.ltb_spec 1000 (length transcript_text)); [lia|reflexivity].
Qed.

Lemma preview_displayed_witness :
  (exists (shown : pystr) (later : list event),
     snd (run (@main Scenario.working
                 (Some (Scenario.plain (utf8_encode Scenario.long_text))))) =
       page_setup ++
       [st_expander_enter (lit "Original Transcript Preview");
        st_text shown; st_expander_exit] ++ later /\
     shown = take 1000 Scenario.long_text ++ lit "...") /\
  (exists (shown : pystr) (later : list event),
     snd (run (@main Scenario.working
                 (Some (Scenario.plain (utf8_encode Scenario.interview))))) =
       page_setup ++
       [st_expander_enter (lit "Original Transcript Preview");
        st_text shown; st_expander_exit] ++ later /\
     shown = Scenario.interview).
Proof.
  split.
  - destruct (@preview_displayed Scenario.working
                (Scenario.plain (utf8_encode Scenario.long_text))
                Scenario.long_text)
      as (shown & later & Htrace & Hlong & _); [vm_compute; reflexivity|].
    exists shown, later. split; [exact Htrace|].
    apply Hlong. apply Nat.ltb_lt. vm_compute. reflexivity.
  - destruct (@preview_displayed Scenario.working
                (Scenario.plain (utf8_encode Scenario.interview))
                Scenario.interview)
      as (shown & later & Htrace & _ & Hshort); [vm_compute; reflexivity|].
    exists shown, later. split; [exact Htrace|].
    apply Hshort. apply Nat.ltb_lt. vm_compute. reflexivity.
Defined.

(** C9. When extraction raises, the run reports the error to the user and
    ends there: after the page set-up the only event is the error
    message, so no prompt reaches the generation service. *)
Theorem extraction_failure_halts `{Services}
    (uploaded_file : UploadedFile) (e : exn) :
  extract uploaded_file = Raise e ->
  run (main (Some uploaded_file)) =
    (Ok tt, page_setup ++ [st_error (lit "Error processing file: ") e]) /\
  existsb is_generation (snd (run (main (Some uploaded_file)))) = false.
Proof.
  intros Hx. rewrite (main_run_failed _ _ Hx). split; reflexivity.
Qed.

Lemma extraction_failure_halts_witness :
  let f := Scenario.pdf [x48; x69] in
  let e := LibraryError "PdfReadError" (lit "EOF marker not found") in
  @extract Scenario.working f = Raise e /\
  run (@main Scenario.working (Some f)) =
    (Ok tt, page_setup ++ [st_error (lit "Error processing file: ") e]) /\
  existsb is_generation (snd (run (@main Scenario.working (Some f)))) = false.
Proof.
  intros f e. split; [reflexivity|].
  apply (@extraction_failure_halts Scenario.working f e). reflexivity.
Defined.

(** C10. A text of exactly 1000 characters is shown whole, with no
    ellipsis: truncation starts above 1000 characters. *)
Theorem preview_at_exactly_1000 `{Services}
    (uploaded_file : UploadedFile) (transcript_text : pystr) :
  extract uploaded_file = Ok transcript_text ->
  length transcript_text = 1000%nat ->
  preview transcript_text = transcript_text /\
  exists later : list event,
    snd (run (main (Some uploaded_file))) =
      page_setup ++
      [st_expander_enter (lit "Original Transcript Preview");
       st_text transcript_text; st_expander_exit] ++ later.
Proof.
  intros Hx Hlen.
  assert (preview transcript_text = transcript_text) as Hp.
  { unfold preview. now rewrite Hlen. }
  split; [exact Hp|]. eexists.
  rewrite (main_run_extracted _ _ Hx). unfold success_events.
  rewrite Hp. reflexivity.
Qed.

Lemma preview_at_exactly_1000_witness :
  let f := Scenario.plain (utf8_encode Scenario.full_page) in
  length Scenario.full_page = 1000%nat /\
  preview Scenario.full_page = Scenario.full_page /\
  exists later : list event,
    snd (run (@main Scenario.working (Some f))) =
      page_setup ++
      [st_expander_enter (lit "Original Transcript Preview");
       st_text Scenario.full_page; st_expander_exit] ++ later.
Proof.
  intros f. split; [vm_compute; reflexivity|].
  apply (@preview_at_exactly_1000 Scenario.working f Scenario.full_page);
    vm_compute; reflexivity.
Defined.

(** * Further properties of the program *)

(** ** Helpers *)

Lemma configure_gemini_api_run `{Startup} (tr : list script_event) :
  configure_gemini_api tr =
  (Ok tt,
   tr ++
   match getenv (lit "GOOGLE_API_KEY") with
   | None | Some [] =>
     [st_error_text (lit "Google API key not found in .env file.")]
   | Some api_key =>
     genai_configure_call api_key ::
     match configure api_key with
     | Ok _ => []
     | Raise e => [st_error_exn (lit "Error configuring API: ") e]
     end
   end).
Proof.
  unfold configure_gemini_api, attempt, perform, external.
  destruct (getenv (lit "GOOGLE_API_KEY")) as [[|c k]|]; try reflexivity.
  unfold mbind, T_bind.
  destruct (configure (c :: k)) as [[]|e]; [reflexivity|].
  now rewrite <- app_assoc.
Qed.

Lemma main_returns `{Services} (upload : option UploadedFile) :
  exists later : list event,
    run (main upload) = (Ok tt, page_setup ++ later) /\
    (upload = None -> later = []).
Proof.
  destruct upload as [f|].
  - destruct (extract f) as [t|e] eqn:Hx.
    + eexists. split; [apply (main_run_extracted _ _ Hx)|discriminate].
    + eexists. split; [apply (main_run_failed _ _ Hx)|discriminate].
  - exists []. split; [|reflexivity]. rewrite main_run_idle.
    now rewrite app_nil_r.
Qed.

Lemma mapM_Raise {A B} (f : A -> outcome B) (good : list A) (bad : A)
    (rest : list A) (oks : list B) (e : exn) :
  f <$> good = Ok <$> oks -> f bad = Raise e ->
  mapM f (good ++ bad :: rest) = Raise e.
Proof.
  revert oks. induction good as [|a good IH]; intros [|b oks]; cbn;
    try easy.
  - intros _ ->. reflexivity.
  - intros [= Ha Hg] Hb. rewrite Ha. cbn. now rewrite (IH oks Hg Hb).
Qed.

Lemma length_utf8_encode1 (c : codepoint) :
  (1 <= length (utf8_encode1 c) <= 4)%nat.
Proof.
  unfold utf8_encode1.
  destruct (c <? 128); [cbn; lia|].
  destruct (c <? 2048); [cbn; lia|].
  destruct (c <? 65536); cbn; lia.
Qed.

Lemma length_utf8_encode (s : pystr) :
  (length s <= length (utf8_encode s) <= 4 * length s)%nat.
Proof.
  induction s as [|c s IH]; [cbn; lia|].
  rewrite utf8_encode_cons, length_app. cbn [length].
  pose proof (length_utf8_encode1 c). lia.
Qed.

Lemma utf8_decode_ascii (b : bytes) :
  forallb (fun x => Byte.to_N x <? 0x80) b = true ->
  utf8_decode b = Some (Byte.to_N <$> b).
Proof.
  induction b as [|x b IH]; [reflexivity|].
  cbn [forallb]. intros [Hx Hb]%andb_true_iff.
  cbn [utf8_decode]. rewrite Hx, (IH Hb). reflexivity.
Qed.

(** ** Start-up *)

(** X1. When [GOOGLE_API_KEY] is unset or set to the empty string,
    [configure_gemini_api] shows "Google API key not found in .env file."
    and returns without calling [genai.configure]. *)
Theorem configure_reports_missing_key `{Startup} (tr : list script_event) :
  getenv (lit "GOOGLE_API_KEY") = None \/
  getenv (lit "GOOGLE_API_KEY") = Some [] ->
  configure_gemini_api tr =
  (Ok tt,
   tr ++ [st_error_text (lit "Google API key not found in .env file.")]).
Proof.
  intros Hk. rewrite configure_gemini_api_run.
  now destruct Hk as [-> | ->].
Qed.

Lemma configure_reports_missing_key_witness :
  @getenv Fixture.key_empty (lit "GOOGLE_API_KEY") = Some [] /\
  @getenv Fixture.key_unset (lit "GOOGLE_API_KEY") = None /\
  @configure_gemini_api Fixture.key_empty [] =
    (Ok tt, [st_error_text (lit "Google API key not found in .env file.")]) /\
  @configure_gemini_api Fixture.key_unset [] =
    (Ok tt, [st_error_text (lit "Google API key not found in .env file.")]).
Proof.
  split; [vm_compute; reflexivity|]. split; [vm_compute; reflexivity|]. split.
  - apply (@configure_reports_missing_key Fixture.key_empty []).
    right. vm_compute. reflexivity.
  - apply (@configure_reports_missing_key Fixture.key_unset []).
    left. vm_compute. reflexivity.
Defined.

(** X2. With a non-empty [GOOGLE_API_KEY], [configure_gemini_api] hands
    exactly that value to [genai.configure], once; when the call returns,
    nothing is shown. *)
Theorem configure_passes_key `{Startup}
    (api_key : pystr) (tr : list script_event) :
  getenv (lit "GOOGLE_API_KEY") = Some api_key ->
  api_key <> [] ->
  configure api_key = Ok tt ->
  configure_gemini_api tr = (Ok tt, tr ++ [genai_configure_call api_key]).
Proof.
  intros Hk Hne Hc. rewrite configure_gemini_api_run, Hk.
  destruct api_key as [|c k]; [easy|]. now rewrite Hc.
Qed.

Lemma configure_passes_key_witness :
  @getenv Fixture.key_set (lit "GOOGLE_API_KEY") = Some Fixture.api_key /\
  @configure_gemini_api Fixture.key_set [] =
    (Ok tt, [genai_configure_call Fixture.api_key]).
Proof.
  split; [vm_compute; reflexivity|].
  apply (@configure_passes_key Fixture.key_set Fixture.api_key []);
    [vm_compute; reflexivity|discriminate|reflexivity].
Defined.

(** X3. When [genai.configure] raises, [configure_gemini_api] catches the
    exception, shows "Error configuring API: ..." and returns normally. *)
Theorem configure_failure_reported `{Startup}
    (api_key : pystr) (e : exn) (tr : list script_event) :
  getenv (lit "GOOGLE_API_KEY") = Some api_key ->
  api_key <> [] ->
  configure api_key = Raise e ->
  configure_gemini_api tr =
  (Ok tt,
   tr ++ [genai_configure_call api_key;
          st_error_exn (lit "Error configuring API: ") e]).
Proof.
  intros Hk Hne Hc. rewrite configure_gemini_api_run, Hk.
  destruct api_key as [|c k]; [easy|]. now rewrite Hc.
Qed.

Lemma configure_failure_reported_witness :
  @configure_gemini_api Fixture.key_rejected [] =
  (Ok tt,
   [genai_configure_call Fixture.api_key;
    st_error_exn (lit "Error configuring API: ") Fixture.bad_key]).
Proof.
  apply (@configure_failure_reported Fixture.key_rejected Fixture.api_key
           Fixture.bad_key []);
    [vm_compute; reflexivity|discriminate|reflexivity].
Defined.

(** X4. Whatever start-up finds -- key missing, key accepted, key
    rejected -- the script goes on to [main]: its trace is at most two
    start-up events, with at most one call of [genai.configure], followed
    by the events of [main], and it ends normally. *)
Theorem script_always_runs_main `{Startup} `{Services}
    (upload : option UploadedFile) :
  exists startup : list script_event,
    configure_gemini_api [] = (Ok tt, startup) /\
    (1 <= length startup <= 2)%nat /\
    Forall (fun ev => match ev with page _ => False | _ => True end)
      startup /\
    script upload [] = (Ok tt, startup ++ (page <$> snd (run (main upload)))).
Proof.
  destruct (main_returns upload) as (later & Hm & _).
  eexists. split; [apply configure_gemini_api_run|].
  unfold script, on_page, mbind, T_bind.
  rewrite configure_gemini_api_run, Hm. cbn [app snd].
  destruct (getenv (lit "GOOGLE_API_KEY")) as [[|c k]|];
    [| destruct (configure (c :: k)) |];
    (split; [cbn; lia|]); (split; [repeat constructor|reflexivity]).
Qed.

(** ** The flow of [main] beyond the preview *)

(** X5. [main] ends normally for every upload and every behaviour of the
    libraries, and starts with the page set-up; with no upload it does
    nothing else. *)
Theorem main_never_raises `{Services} (upload : option UploadedFile) :
  exists later : list event,
    run (main upload) = (Ok tt, page_setup ++ later) /\
    (upload = None -> later = []).
Proof. apply main_returns. Qed.

Lemma main_never_raises_witness :
  run (@main Scenario.out_of_quota None) = (Ok tt, page_setup).
Proof.
  destruct (@main_never_raises Scenario.out_of_quota None)
    as (later & Hrun & Hidle).
  rewrite Hrun, (Hidle eq_refl). apply f_equal, app_nil_r.
Defined.

(** X6. When the text is extracted but generation fails, the run shows
    the generation error inside the spinner and then renders the report
    all the same, with "Could not generate summary." as its body. *)
Theorem generation_failure_renders_fallback `{Services}
    (uploaded_file : UploadedFile) (transcript_text : pystr) (e : exn) :
  extract uploaded_file = Ok transcript_text ->
  generation transcript_text = Raise e ->
  run (main (Some uploaded_file)) =
  (Ok tt,
   page_setup ++
   [st_expander_enter (lit "Original Transcript Preview");
    st_text (preview transcript_text);
    st_expander_exit;
    st_write (0x1F50D :: lit " Analyzing Interview Transcript...");
    st_spinner_enter (lit "Generating comprehensive analysis...");
    generate_content_call model (build_prompt transcript_text);
    st_error (lit "Error generating summary: ") e;
    st_spinner_exit;
    st_header (0x1F4C4 :: lit " Interview Analysis Report");
    st_markdown (lit "### Comprehensive Insights");
    st_write (lit "Could not generate summary.")]).
Proof.
  intros Hx Hg. rewrite (main_run_extracted _ _ Hx).
  unfold success_events, generation_events, summary_text. now rewrite Hg.
Qed.

Lemma generation_failure_renders_fallback_witness :
  let f := Scenario.plain (utf8_encode Scenario.interview) in
  last (snd (run (@main Scenario.out_of_quota (Some f)))) =
    Some (st_write (lit "Could not generate summary.")).
Proof.
  intros f.
  rewrite (@generation_failure_renders_fallback Scenario.out_of_quota f
             Scenario.interview Scenario.quota_error);
    vm_compute; reflexivity.
Defined.

(** X7. When the text is extracted and generation answers [R], the run
    ends by writing exactly [R] under the report header, and shows no
    error. *)
Theorem successful_run_displays_report `{Services}
    (uploaded_file : UploadedFile) (transcript_text R : pystr) :
  extract uploaded_file = Ok transcript_text ->
  generation transcript_text = Ok R ->
  run (main (Some uploaded_file)) =
  (Ok tt,
   page_setup ++
   [st_expander_enter (lit "Original Transcript Preview");
    st_text (preview transcript_text);
    st_expander_exit;
    st_write (0x1F50D :: lit " Analyzing Interview Transcript...");
    st_spinner_enter (lit "Generating comprehensive analysis...");
    generate_content_call model (build_prompt transcript_text);
    st_spinner_exit;
    st_header (0x1F4C4 :: lit " Interview Analysis Report");
    st_markdown (lit "### Comprehensive Insights");
    st_write R]).
Proof.
  intros Hx Hg. rewrite (main_run_extracted _ _ Hx).
  unfold success_events, generation_events, summary_text. now rewrite Hg.
Qed.

Lemma successful_run_displays_report_witness :
  let f := Scenario.pdf Scenario.pdf_bytes in
  last (snd (run (@main Scenario.working (Some f)))) =
    Some (st_write (lit "MOCK_SUMMARY")).
Proof.
  intros f.
  rewrite (@successful_run_displays_report Scenario.working f
             (lit "Q: Tell me about yourself.  A: I am a backend engineer.")
             (lit "MOCK_SUMMARY"));
    vm_compute; reflexivity.
Defined.

(** X8. A processed upload causes exactly one generation call, whether it
    succeeds or fails (there is no retry), and the prompt of that call is
    built from the whole extracted text, not from the truncated
    preview. *)
Theorem one_generation_call_per_upload `{Services}
    (uploaded_file : UploadedFile) (transcript_text : pystr) :
  extract uploaded_file = Ok transcript_text ->
  List.filter is_generation
    (snd (run (main (Some uploaded_file)))) =
  [generate_content_call model (build_prompt transcript_text)].
Proof.
  intros Hx. rewrite (main_run_extracted _ _ Hx).
  unfold success_events, generation_events. cbn [snd].
  rewrite !List.filter_app.
  destruct (generation transcript_text); reflexivity.
Qed.

Lemma one_generation_call_per_upload_witness :
  let f := Scenario.plain (utf8_encode Scenario.long_text) in
  List.filter is_generation
    (snd (run (@main Scenario.out_of_quota (Some f)))) =
  [generate_content_call model (build_prompt Scenario.long_text)].
Proof.
  intros f.
  apply (@one_generation_call_per_upload Scenario.out_of_quota f
           Scenario.long_text).
  vm_compute. reflexivity.
Defined.

(** X9. A run of [main] shows at most one error message: an extraction
    error ends the run before generation, and a generation error is the
    only one after a successful extraction. *)
Theorem at_most_one_error_per_run `{Services}
    (upload : option UploadedFile) :
  (length (List.filter is_error (snd (run (main upload)))) <= 1)%nat.
Proof.
  destruct upload as [f|]; [|rewrite main_run_idle; cbn; lia].
  destruct (extract f) as [t|e] eqn:Hx.
  - rewrite (main_run_extracted _ _ Hx).
    unfold success_events, generation_events. cbn [snd].
    rewrite !List.filter_app.
    destruct (generation t); cbn; lia.
  - rewrite (main_run_failed _ _ Hx). cbn. lia.
Qed.

(** ** The summary mapping *)

(** X10. [generate_interview_summary] returns on every input and for
    every behaviour of the service; the mapping it returns has the single
    key ["summary"], and the events recorded before the call are kept. *)
Theorem summary_has_single_key `{Services}
    (transcript_text : pystr) (tr : list event) :
  exists (d : gmap pystr pystr) (tr' : list event),
    generate_interview_summary transcript_text tr = (Ok d, tr') /\
    dom d = {[ lit "summary" ]} /\
    tr `prefix_of` tr'.
Proof.
  eexists _, _. split; [apply generate_interview_summary_run|].
  split; [apply dom_singleton_L|]. now apply prefix_app_r.
Qed.

(** X11. The returned mapping does not tell a failed generation from one
    that answered with the wording of the fallback: both give the same
    mapping. *)
Theorem fallback_not_distinguishable (failing answering : Services)
    (transcript_text : pystr) (e : exn) (tr : list event) :
  @generation failing transcript_text = Raise e ->
  @generation answering transcript_text =
    Ok (lit "Could not generate summary.") ->
  fst (@generate_interview_summary failing transcript_text tr) =
  fst (@generate_interview_summary answering transcript_text tr).
Proof.
  intros Hf Ha. rewrite !generate_interview_summary_run. cbn [fst].
  unfold summary_text. now rewrite Hf, Ha.
Qed.

Lemma fallback_not_distinguishable_witness :
  fst (@generate_interview_summary Scenario.out_of_quota
         Scenario.interview []) =
  fst (@generate_interview_summary Fixture.echo_fallback
         Scenario.interview []).
Proof.
  apply (fallback_not_distinguishable Scenario.out_of_quota
           Fixture.echo_fallback Scenario.interview Scenario.quota_error []);
    reflexivity.
Defined.

(** ** Extraction beyond the specified cases *)

(** X12. Plain-text extraction loses nothing: whenever it returns a string,
    that string consists of Unicode scalar values (no surrogates, nothing
    above U+10FFFF) and encodes back to exactly the uploaded bytes; it has
    at most as many characters as there are bytes, and at least a quarter
    as many. *)
Theorem extract_plain_text_lossless `{Services}
    (uploaded_file : UploadedFile) (s : pystr) :
  type uploaded_file <> application_pdf ->
  type uploaded_file <> application_docx ->
  extract uploaded_file = Ok s ->
  forallb is_scalar s = true /\
  utf8_encode s = getvalue uploaded_file /\
  (length s <= length (getvalue uploaded_file) <= 4 * length s)%nat.
Proof.
  intros H1 H2. rewrite extract_plain by assumption.
  destruct (utf8_decode (getvalue uploaded_file)) as [s'|] eqn:E;
    [|discriminate].
  intros [= ->].
  destruct (utf8_decode_sound_aux _ _ _ (Nat.le_refl _) E) as [Hs He].
  split; [exact Hs|]. split; [exact He|].
  rewrite <- He. apply length_utf8_encode.
Qed.

Lemma extract_plain_text_lossless_witness :
  let f := Scenario.plain [x4a; x6f; x73; xc3; xa9; x20; xf0; x9f; x98; x80] in
  utf8_encode (lit "Jos" ++ [0xE9; 0x20; 0x1F600]) = getvalue f /\
  (6 <= 10 <= 24)%nat.
Proof.
  intros f.
  destruct (@extract_plain_text_lossless Scenario.working f
              (lit "Jos" ++ [0xE9; 0x20; 0x1F600]))
    as (_ & Henc & Hlen); [discriminate|discriminate|reflexivity|].
  split; [exact Henc|exact Hlen].
Defined.

(** X13. A plain-text upload made of ASCII bytes only is always
    extracted, one character per byte. *)
Theorem extract_ascii_text `{Services} (uploaded_file : UploadedFile) :
  type uploaded_file <> application_pdf ->
  type uploaded_file <> application_docx ->
  forallb (fun x => Byte.to_N x <? 0x80) (getvalue uploaded_file) = true ->
  extract uploaded_file = Ok (Byte.to_N <$> getvalue uploaded_file).
Proof.
  intros H1 H2 Ha. rewrite extract_plain by assumption.
  now rewrite utf8_decode_ascii.
Qed.

Lemma extract_ascii_text_witness :
  @extract Scenario.working (Scenario.plain [x51; x3a; x20; x48; x69; x3f]) =
  Ok (lit "Q: Hi?").
Proof.
  apply (@extract_ascii_text Scenario.working
           (Scenario.plain [x51; x3a; x20; x48; x69; x3f]));
    [discriminate|discriminate|reflexivity].
Defined.

(** X14. In a PDF, the first page whose text cannot be extracted decides:
    extraction raises that page's exception, whatever the later pages
    hold, and no partial text is returned. *)
Theorem extract_pdf_first_failing_page `{Services}
    (uploaded_file : UploadedFile) (pdf_reader : PyPDF2.PdfReader)
    (before : list PyPDF2.PageObject) (failing : PyPDF2.PageObject)
    (after : list PyPDF2.PageObject) (texts : list pystr) (e : exn) :
  type uploaded_file = application_pdf ->
  PdfReader (getvalue uploaded_file) = Ok pdf_reader ->
  PyPDF2.pages pdf_reader = before ++ failing :: after ->
  PyPDF2.extract_text <$> before = Ok <$> texts ->
  PyPDF2.extract_text failing = Raise e ->
  extract uploaded_file = Raise e.
Proof.
  intros Ht Hr Hp Hb Hf. unfold extract.
  rewrite decide_True by exact Ht. rewrite Hr, bind_Ok, Hp.
  now rewrite (mapM_Raise _ _ _ _ _ _ Hb Hf).
Qed.

Lemma extract_pdf_first_failing_page_witness :
  @extract Fixture.damaged (Scenario.pdf Scenario.pdf_bytes) =
  Raise Fixture.page_error.
Proof.
  apply (@extract_pdf_first_failing_page Fixture.damaged
           (Scenario.pdf Scenario.pdf_bytes) Fixture.damaged_page
           [ {| PyPDF2.extract_text := Ok (lit "Q: Why this role?") |} ]
           {| PyPDF2.extract_text := Raise Fixture.page_error |}
           [ {| PyPDF2.extract_text := Ok (lit "A: I like databases.") |} ]
           [lit "Q: Why this role?"] Fixture.page_error);
    reflexivity.
Defined.

(** X15. The declared content type alone chooses the reader: an upload
    declared as PDF (or .docx) that the library cannot open is an
    extraction error, even when its bytes are perfectly good UTF-8 text;
    there is no fall-back to plain-text decoding. *)
Theorem extract_no_text_fallback `{Services}
    (uploaded_file : UploadedFile) (e : exn) :
  (type uploaded_file = application_pdf /\
   PdfReader (getvalue uploaded_file) = Raise e) \/
  (type uploaded_file = application_docx /\
   Document (getvalue uploaded_file) = Raise e) ->
  extract uploaded_file = Raise e.
Proof.
  unfold extract. intros [[Ht Hr]|[Ht Hr]].
  - rewrite decide_True by exact Ht. now rewrite Hr.
  - rewrite decide_False, decide_True by
      (try exact Ht; rewrite Ht; exact mime_types_differ).
    now rewrite Hr.
Qed.

Lemma extract_no_text_fallback_witness :
  let text_bytes := utf8_encode Scenario.interview in
  utf8_decode text_bytes = Some Scenario.interview /\
  @extract Scenario.working (Scenario.word text_bytes) =
    Raise (LibraryError "BadZipFile" (lit "File is not a zip file")).
Proof.
  intros text_bytes. split; [vm_compute; reflexivity|].
  apply (@extract_no_text_fallback Scenario.working
           (Scenario.word text_bytes)).
  right. split; vm_compute; reflexivity.
Defined.

(** X16. Empty documents are not errors: an empty plain-text file, a PDF
    without pages and a .docx without paragraphs all extract to the empty
    string. *)
Theorem extract_empty_document `{Services} (uploaded_file : UploadedFile) :
  (type uploaded_file = application_pdf /\
   exists r, PdfReader (getvalue uploaded_file) = Ok r /\
             PyPDF2.pages r = []) \/
  (type uploaded_file = application_docx /\
   exists d, Document (getvalue uploaded_file) = Ok d /\
             docx.paragraphs d = []) \/
  (type uploaded_file <> application_pdf /\
   type uploaded_file <> application_docx /\
   getvalue uploaded_file = []) ->
  extract uploaded_file = Ok [].
Proof.
  intros [[Ht (r & Hr & Hp)]|[[Ht (d & Hd & Hp)]|(H1 & H2 & Hb)]].
  - unfold extract. rewrite decide_True by exact Ht.
    rewrite Hr, bind_Ok, Hp. reflexivity.
  - unfold extract. rewrite decide_False, decide_True by
      (try exact Ht; rewrite Ht; exact mime_types_differ).
    rewrite Hd, bind_Ok, Hp. reflexivity.
  - rewrite extract_plain by assumption. now rewrite Hb.
Qed.

Lemma extract_empty_document_witness :
  @extract Fixture.blank (Scenario.pdf Scenario.pdf_bytes) = Ok [] /\
  @extract Fixture.blank (Scenario.word Scenario.docx_bytes) = Ok [] /\
  @extract Fixture.blank (Scenario.plain []) = Ok [].
Proof.
  split; [|split].
  - apply (@extract_empty_document Fixture.blank
             (Scenario.pdf Scenario.pdf_bytes)).
    left. split; [reflexivity|]. eexists. split; reflexivity.
  - apply (@extract_empty_document Fixture.blank
             (Scenario.word Scenario.docx_bytes)).
    right; left. split; [reflexivity|]. eexists. split; reflexivity.
  - apply (@extract_empty_document Fixture.blank (Scenario.plain [])).
    right; right. split; [discriminate|]. split; [discriminate|reflexivity].
Defined.

(** ** Preview and prompt *)

(** X17. The preview is never longer than 1003 characters, and its first
    1000 characters are the first 1000 characters of the text. *)
Theorem preview_bounded (transcript_text : pystr) :
  (length (preview transcript_text) <= 1003)%nat /\
  take 1000 (preview transcript_text) = take 1000 transcript_text.
Proof.
  unfold preview.
  destruct (Nat.ltb_spec 1000 (length transcript_text)) as [Hlt|Hge].
  - split.
    + rewrite length_app, length_take.
      change (length (lit "...")) with 3%nat. lia.
    + rewrite take_app_le by (rewrite length_take; lia).
      rewrite take_take. f_equal.
  - split; [lia|reflexivity].
Qed.

(** X18. The prompt is the text plus a fixed 1015 characters of template:
    nothing of the text is cut, whatever its length, and the text is found
    again at offset 888. *)
Theorem build_prompt_keeps_whole_text (transcript_text : pystr) :
  length (build_prompt transcript_text) =
    (length transcript_text + 1015)%nat /\
  take (length transcript_text) (drop 888 (build_prompt transcript_text)) =
    transcript_text.
Proof.
  unfold build_prompt.
  assert (length prompt_head = 888%nat) as Hh by (vm_compute; reflexivity).
  assert (length prompt_tail = 127%nat) as Ht by (vm_compute; reflexivity).
  split.
  - rewrite !length_app, Hh, Ht. lia.
  - rewrite <- Hh, drop_app_length. apply take_app_length.
Qed.

(** X19. Different transcripts give different prompts. *)
Theorem build_prompt_injective (t1 t2 : pystr) :
  build_prompt t1 = build_prompt t2 -> t1 = t2.
Proof.
  unfold build_prompt. intros Heq.
  apply app_inv_head in Heq. now apply app_inv_tail in Heq.
Qed.

Lemma build_prompt_injective_witness :
  build_prompt (lit "Q: Hi?") = build_prompt (lit "Q: " ++ lit "Hi?") /\
  lit "Q: Hi?" = lit "Q: " ++ lit "Hi?".
Proof.
  split; [reflexivity|].
  apply (build_prompt_injective (lit "Q: Hi?") (lit "Q: " ++ lit "Hi?")).
  reflexivity.
Defined.
